(** * chitra.serve.model_server: a shallow embedding

    The module wraps a callable model in a web API.  A string tag selects
    the task, a pair of pre/post-processing functions is either supplied
    by the caller or taken from two shared default processors, and one
    route is registered on a FastAPI application.

    Conventions of the embedding.
    - Python [str] is [string]; [str.upper] is modelled on ASCII text
      (the four task tags are ASCII).
    - Python values that flow through handlers are the data type [pyval].
    - A callable takes one positional argument and keyword arguments and
      either returns a value or raises; it is a pure function.  Every
      callable object is truthy.
    - The two class attributes [DefaultProcessor.vision] and
      [DefaultProcessor.nlp] are shared mutable objects: they live in the
      [World], and an API that uses a default holds a reference to it.
    - Effects that are not visible in the returned objects (which default
      was resolved, which route was registered, whether the server was
      started) are recorded, in order, in the world's [log]. *)

From Stdlib Require Import Ascii String.
From stdpp Require Import gmap strings list.

Open Scope string_scope.
Open Scope list_scope.

(** ** Python data *)

Module Py.

(** [str.upper] on one ASCII character: a-z go to A-Z. *)
Definition upper_ascii (c : ascii) : ascii :=
  let n := nat_of_ascii c in
  if (97 <=? n)%nat && (n <=? 122)%nat then ascii_of_nat (n - 32) else c.

Fixpoint upper (s : string) : string :=
  match s with
  | EmptyString => EmptyString
  | String c r => String (upper_ascii c) (upper r)
  end.

(** Data values: what requests carry and what callables consume and
    produce. *)
#[warnings="-register-all"]
Inductive pyval :=
| PNone
| PBool (b : bool)
| PInt (n : Z)
| PStr (s : string)
| PBytes (b : list Byte.byte)
| PTuple (items : list pyval).

Abbreviation kwargs := (gmap string pyval).

Inductive exn :=
| UserWarning (msg : string)
| TypeError (msg : string)
| AttributeError (msg : string)
| OtherException (cls msg : string).

(** The result of evaluating a Python expression: an exception or a
    value. *)
Abbreviation outcome A := (sum exn A).

(** A callable [f], used as [f(x, **kw)]. *)
Definition pyfun := pyval -> kwargs -> outcome pyval.

(** [a or b] on optional callables: a callable is truthy, [None] is
    falsy. *)
Definition py_or (a b : option pyfun) : option pyfun :=
  match a with
  | Some f => Some f
  | None => b
  end.

Definition is_None {A} (o : option A) : bool :=
  match o with None => true | Some _ => false end.

(** Truth value of an optional callable, as tested by [if f:]. *)
Definition truthy (o : option pyfun) : bool := negb (is_None o).

(** [{**a, **b}]: the keys of [b] override those of [a]. *)
Definition merge_kw (a b : kwargs) : kwargs := b ∪ a.

(** The partial object of [g] and [kw]: on a call, [kw] is merged under
    the keywords of the call. *)
Definition partial_of (g : pyfun) (kw : kwargs) : pyfun :=
  fun x kw' => g x (merge_kw kw kw').

(** [functools.partial(f, **kw)]: refuses a non-callable. *)
Definition partial (f : option pyfun) (kw : kwargs) : outcome pyfun :=
  match f with
  | None => inl (TypeError "the first argument must be callable")
  | Some g => inr (partial_of g kw)
  end.

(** [f(x)] where [f] may be [None]. *)
Definition call (f : option pyfun) (x : pyval) : outcome pyval :=
  match f with
  | None => inl (TypeError "'NoneType' object is not callable")
  | Some g => g x ∅
  end.

(** [repr] of a string without quotes, backslashes or control
    characters, and [str] of a list of such strings. *)
Definition repr_str (s : string) : string := "'" +:+ s +:+ "'".

Fixpoint join (sep : string) (l : list string) : string :=
  match l with
  | [] => ""
  | [x] => x
  | x :: r => x +:+ sep +:+ join sep r
  end.

Definition str_list (l : list string) : string :=
  "[" +:+ join ", " (map repr_str l) +:+ "]".

(** [x in t] for a tuple of strings. *)
Fixpoint tuple_mem (x : string) (t : list string) : bool :=
  match t with
  | [] => false
  | y :: r => String.eqb x y || tuple_mem x r
  end.

(** [d.get(k)] and [d.values()] on a dict kept in insertion order. *)
Fixpoint dict_get {V} (d : list (string * V)) (k : string) : option V :=
  match d with
  | [] => None
  | (k', v) :: r => if String.eqb k k' then Some v else dict_get r k
  end.

Definition dict_values {V} (d : list (string * V)) : list V := map snd d.

(** [d.get(k, default)] on keyword arguments. *)
Definition kw_get (kw : kwargs) (k : string) (default : pyval) : pyval :=
  match kw !! k with
  | Some v => v
  | None => default
  end.

End Py.
Import Py.

(** ** Objects of the program *)

(** The three request handlers, as route endpoints (bound methods of the
    API object). *)
Inductive endpoint :=
| to_predict_image
| to_predict_text
| to_predict_question_answer.

Record route := { methods : list string; path : string; handler : endpoint }.

(** The FastAPI application object: its metadata and the routes added
    through [app.post].  The documentation routes that the framework
    creates for itself are not part of the model. *)
Record FastAPI := {
  title : pyval;
  description : pyval;
  docs_url : pyval;
  routes : list route
}.

(** Modelled from the spec: the class DataProcessor of
    chitra.serve.data_processing is imported, not defined, by the module.
    The spec has it hold two optional function references, preprocess and
    postprocess. *)
Record DataProcessor := {
  preprocess_fn : option pyfun;
  postprocess_fn : option pyfun
}.

Inductive category := VISION | NLP.

Inductive slot := pre_slot | post_slot.

Definition get_slot (p : DataProcessor) (s : slot) : option pyfun :=
  match s with
  | pre_slot => preprocess_fn p
  | post_slot => postprocess_fn p
  end.

Definition set_slot (p : DataProcessor) (s : slot) (f : pyfun) : DataProcessor :=
  match s with
  | pre_slot => {| preprocess_fn := Some f; postprocess_fn := postprocess_fn p |}
  | post_slot => {| preprocess_fn := preprocess_fn p; postprocess_fn := Some f |}
  end.

(** A reference to a processor object: one of the two shared defaults, or
    an object built for one server and referenced by it alone. *)
Inductive proc_ref :=
| Default (c : category)
| Own (p : DataProcessor).

Inductive event :=
| EvResolve (tag : string)          (* set_default_processor was entered *)
| EvBind (s : slot) (kw : kwargs)   (* a slot was rebound to a partial *)
| EvRoute (r : route)               (* app.post(path)(handler) *)
| EvServe (a : FastAPI).            (* uvicorn.run(app) *)

(** Modelled from the spec: DefaultProcessor.vision and
    DefaultProcessor.nlp, class attributes of the imported
    DefaultProcessor, are the category defaults; their content is a
    parameter of every statement. *)
Record World := {
  vision : DataProcessor;
  nlp : DataProcessor;
  log : list event
}.

Definition default_of (w : World) (c : category) : DataProcessor :=
  match c with
  | VISION => vision w
  | NLP => nlp w
  end.

Definition deref (w : World) (r : proc_ref) : DataProcessor :=
  match r with
  | Default c => default_of w c
  | Own p => p
  end.

Definition store_default (w : World) (c : category) (p : DataProcessor) : World :=
  match c with
  | VISION => {| vision := p; nlp := nlp w; log := log w |}
  | NLP => {| vision := vision w; nlp := p; log := log w |}
  end.

(** ** Construction-time effects: state and exceptions *)

Definition C (A : Type) : Type := World -> World * outcome A.

Definition ret {A} (a : A) : C A := fun w => (w, inr a).

Definition raise {A} (e : exn) : C A := fun w => (w, inl e).

Definition lift {A} (o : outcome A) : C A := fun w => (w, o).

Definition bind {A B} (m : C A) (k : A -> C B) : C B :=
  fun w =>
    match m w with
    | (w', inr a) => k a w'
    | (w', inl e) => (w', inl e)
    end.

Definition emit (e : event) : C unit :=
  fun w => ({| vision := vision w; nlp := nlp w; log := log w ++ [e] |}, inr tt).

Declare Scope py_scope.
Delimit Scope py_scope with py.
Notation "x <- m ;; k" := (bind m (fun x => k))
  (at level 100, m at next level, right associativity) : py_scope.
Notation "m ;; k" := (bind m (fun _ => k))
  (at level 100, right associativity) : py_scope.
Open Scope py_scope.

(** [r.preprocess_fn] / [r.postprocess_fn], read through a reference. *)
Definition get_attr (r : proc_ref) (s : slot) : C (option pyfun) :=
  fun w => (w, inr (get_slot (deref w r) s)).

(** [r.preprocess_fn = f]: a write to a shared default is seen by every
    holder of the reference. *)
Definition set_attr (r : proc_ref) (s : slot) (f : pyfun) : C proc_ref :=
  match r with
  | Default c => fun w => (store_default w c (set_slot (default_of w c) s f), inr r)
  | Own p => ret (Own (set_slot p s f))
  end.

(** ** The module *)

Definition IMAGE_CLF : string := "IMAGE-CLASSIFICATION".
Definition OBJECT_DETECTION : string := "OBJECT-DETECTION".
Definition TXT_CLF : string := "TEXT-CLASSIFICATION".
Definition QNA : string := "QUESTION-ANS".

Definition API_TYPES : list (string * list string) :=
  [("VISION", [IMAGE_CLF; OBJECT_DETECTION]); ("NLP", [TXT_CLF; QNA])].

Definition get_available_api_types : list string :=
  concat (dict_values API_TYPES).

(** *** class ModelServer *)

Record ModelServer := {
  api_type : string;
  model : pyfun;
  data_processor : option proc_ref
}.

Definition with_processor (self : ModelServer) (r : option proc_ref) : ModelServer :=
  {| api_type := api_type self; model := model self; data_processor := r |}.

Definition set_data_processor (preprocess_fn postprocess_fn : option pyfun)
  : option DataProcessor :=
  if is_None (py_or preprocess_fn postprocess_fn) then None
  else Some {| preprocess_fn := preprocess_fn; postprocess_fn := postprocess_fn |}.

Definition ModelServer_init (api_type : string) (model : pyfun)
    (preprocess_fn postprocess_fn : option pyfun) (kw : kwargs) : ModelServer :=
  {| api_type := upper api_type;
     model := model;
     data_processor := Own <$> set_data_processor preprocess_fn postprocess_fn |}.

(** [api_type in API_TYPES.get(k)] *)
Definition in_types (api_type k : string) : C bool :=
  match dict_get API_TYPES k with
  | Some t => ret (tuple_mem api_type t)
  | None => raise (TypeError "argument of type 'NoneType' is not iterable")
  end.

Definition not_implemented (api_type : string) : exn :=
  UserWarning (api_type +:+ " is not implemented! Available types are - "
               +:+ str_list get_available_api_types).

(** The method assigns [self.data_processor] and returns it: the result
    is the updated object and the reference. *)
Definition set_default_processor (self : ModelServer) : C (ModelServer * proc_ref) :=
  emit (EvResolve (api_type self));;
  let api_type := api_type self in
  v <- in_types api_type "VISION";;
  if v then
    ret (with_processor self (Some (Default VISION)), Default VISION)
  else
    n <- in_types api_type "NLP";;
    if n then
      ret (with_processor self (Some (Default NLP)), Default NLP)
    else
      raise (not_implemented api_type).

(** *** class API(ModelServer) *)

Record API := { server : ModelServer; app : FastAPI }.

Definition dquote : string := String "034"%char EmptyString.

Definition default_title : string := "Chitra Model Server 🔥".

Definition default_description : string :=
  "<a href=" +:+ dquote +:+ "https://chitra.readthedocs.io/en/latest" +:+ dquote
  +:+ ">Goto Chitra Docs</a> 🔗".

(** [FastAPI(title=.., description=.., docs_url=..)] *)
Definition FastAPI_new (title description docs_url : pyval) : FastAPI :=
  {| title := title; description := description; docs_url := docs_url; routes := [] |}.

(** [self.app.post(path)(handler)] *)
Definition app_post (self : API) (path : string) (h : endpoint) : C API :=
  let r := {| methods := ["POST"]; path := path; handler := h |} in
  emit (EvRoute r);;
  ret {| server := server self;
         app := {| title := title (app self);
                   description := description (app self);
                   docs_url := docs_url (app self);
                   routes := routes (app self) ++ [r] |} |}.

(** [data_processor.<slot> = partial(data_processor.<slot>, **kwargs)] *)
Definition rebind (dp : proc_ref) (s : slot) (kw : kwargs) : C proc_ref :=
  f <- get_attr dp s;;
  p <- lift (partial f kw);;
  dp <- set_attr dp s p;;
  emit (EvBind s kw);;
  ret dp.

Definition setup_api (self : API) (kw : kwargs) : C API :=
  self <- (if is_None (data_processor (server self)) then
             r <- set_default_processor (server self);;
             let '(srv, data_processor) := r in
             data_processor <- rebind data_processor pre_slot kw;;
             data_processor <- rebind data_processor post_slot kw;;
             ret {| server := with_processor srv (Some data_processor); app := app self |}
           else ret self);;
  if String.eqb (api_type (server self)) IMAGE_CLF then
    app_post self "/api/predict-image" to_predict_image
  else if String.eqb (api_type (server self)) TXT_CLF then
    app_post self "/api/predict-text" to_predict_text
  else if String.eqb (api_type (server self)) QNA then
    app_post self "/api/QnA" to_predict_question_answer
  else ret self.

Definition API_init (api_type : string) (model : pyfun)
    (preprocess_fn postprocess_fn : option pyfun) (kw : kwargs) : C API :=
  let srv := ModelServer_init api_type model preprocess_fn postprocess_fn kw in
  let docs_url := kw_get kw "docs_url" (PStr "/docs") in
  let title := kw_get kw "title" (PStr default_title) in
  let desc := kw_get kw "description" (PStr default_description) in
  setup_api {| server := srv; app := FastAPI_new title desc docs_url |} kw.

(** [API.run]: [uvicorn.run(self.app)] *)
Definition API_run (self : API) : C unit := emit (EvServe (app self)).

Definition create_api (model : pyfun) (api_type : string)
    (preprocess postprocess : option pyfun) (run : bool) (kw : kwargs) : C API :=
  api <- API_init api_type model preprocess postprocess kw;;
  (if run then API_run api else ret tt);;
  ret api.

(** ** Request handlers *)

(** A handler run yields the calls it made, in order, and its outcome. *)
Inductive stage := Preprocess | Model | Postprocess.

Record step := Step { step_stage : stage; step_arg : pyval }.

Definition H (A : Type) : Type := list step * outcome A.

Definition hret {A} (a : A) : H A := ([], inr a).

Definition hraise {A} (e : exn) : H A := ([], inl e).

Definition hbind {A B} (m : H A) (k : A -> H B) : H B :=
  match m with
  | (t, inr a) => let '(t', r) := k a in (t ++ t', r)
  | (t, inl e) => (t, inl e)
  end.

Notation "x <~ m ;; k" := (hbind m (fun x => k))
  (at level 100, m at next level, right associativity) : py_scope.

(** [f(x)] as one step of a handler; calling [None] raises before any
    step is made. *)
Definition invoke (st : stage) (f : option pyfun) (x : pyval) : H pyval :=
  match f with
  | None => hraise (TypeError "'NoneType' object is not callable")
  | Some g => ([Step st x], g x ∅)
  end.

(** [self.data_processor.<attr>]: the processor object behind the
    reference held by [self], read in the current world. *)
Definition processor_of (w : World) (self : API) (attr : string) : H DataProcessor :=
  match data_processor (server self) with
  | None => hraise (AttributeError
                      ("'NoneType' object has no attribute '" +:+ attr +:+ "'"))
  | Some r => hret (deref w r)
  end.

(** Modelled from the spec: the methods preprocess and postprocess of the
    imported DataProcessor apply the stored function of that name to
    their argument. *)
Definition DataProcessor_preprocess (p : DataProcessor) (x : pyval) : H pyval :=
  invoke Preprocess (preprocess_fn p) x.

Definition DataProcessor_postprocess (p : DataProcessor) (x : pyval) : H pyval :=
  invoke Postprocess (postprocess_fn p) x.

(** [file] is the content returned by [await file.read()]. *)
Definition predict_image (w : World) (self : API) (file : list Byte.byte) : H pyval :=
  p <~ processor_of w self "preprocess_fn";;
  let preprocess_fn := preprocess_fn p in
  q <~ processor_of w self "postprocess_fn";;
  let postprocess_fn := postprocess_fn q in
  x <~ invoke Preprocess preprocess_fn (PBytes file);;
  x <~ invoke Model (Some (model (server self))) x;;
  x <~ invoke Postprocess postprocess_fn x;;
  hret x.

(** The body shared by the two text handlers, from the request payload
    [x] on. *)
Definition predict_with (w : World) (self : API) (x : pyval) : H pyval :=
  let data_processor := processor_of w self in
  p <~ data_processor "preprocess_fn";;
  x <~ (if truthy (preprocess_fn p) then DataProcessor_preprocess p x else hret x);;
  x <~ invoke Model (Some (model (server self))) x;;
  p <~ data_processor "postprocess_fn";;
  x <~ (if truthy (postprocess_fn p) then DataProcessor_postprocess p x else hret x);;
  hret x.

(** [query] is [data.query]. *)
Definition predict_text (w : World) (self : API) (query : string) : H pyval :=
  predict_with w self (PStr query).


(** ** Concrete objects used in examples *)

Module Sample.

Definition tagged (t : string) : pyfun :=
  fun x kw => inr (PTuple [PStr t; x; PInt (Z.of_nat (size kw))]).

Definition model : pyfun := tagged "model".
Definition pre : pyfun := tagged "pre".
Definition post : pyfun := tagged "post".

Definition defaults : World :=
  {| vision := {| preprocess_fn := Some (tagged "vision-pre");
                  postprocess_fn := Some (tagged "vision-post") |};
     nlp := {| preprocess_fn := Some (tagged "nlp-pre");
               postprocess_fn := Some (tagged "nlp-post") |};
     log := [] |}.

Definition image_size : kwargs := {[ "image_size" := PTuple [PInt 224; PInt 224] ]}.

Definition small_size : kwargs := {[ "image_size" := PTuple [PInt 32; PInt 32] ]}.

(** A function that returns the [image_size] keyword it receives. *)
Definition echo_size : pyfun := fun _ kw => inr (kw_get kw "image_size" PNone).

Definition echo_defaults : World :=
  {| vision := {| preprocess_fn := Some echo_size; postprocess_fn := Some echo_size |};
     nlp := {| preprocess_fn := Some echo_size; postprocess_fn := Some echo_size |};
     log := [] |}.


Definition titled : kwargs := {[ "title" := PStr "demo" ]}.

End Sample.

(** ** Vocabulary of the statements *)

(** The world [w] after the events [l]. *)
Definition logged (w : World) (l : list event) : World :=
  {| vision := vision w; nlp := nlp w; log := log w ++ l |}.

(** The category of a stored tag, in the words of the specification:
    vision for image classification and object detection, NLP for text
    classification and question answering, none for any other string. *)
Definition tag_category (t : string) : option category :=
  if String.eqb t IMAGE_CLF || String.eqb t OBJECT_DETECTION then Some VISION
  else if String.eqb t TXT_CLF || String.eqb t QNA then Some NLP
  else None.

Definition POST (p : string) (h : endpoint) : route :=
  {| methods := ["POST"]; path := p; handler := h |}.

(** The routes of a stored tag, in the words of the specification. *)
Definition route_for (t : string) : list route :=
  if String.eqb t IMAGE_CLF then [POST "/api/predict-image" to_predict_image]
  else if String.eqb t TXT_CLF then [POST "/api/predict-text" to_predict_text]
  else if String.eqb t QNA then [POST "/api/QnA" to_predict_question_answer]
  else [].

Definition add_routes (a : FastAPI) (l : list route) : FastAPI :=
  {| title := title a; description := description a; docs_url := docs_url a;
     routes := routes a ++ l |}.

(** The application object that [API.__init__] creates from its keywords. *)
Definition app_of_kwargs (kw : kwargs) : FastAPI :=
  FastAPI_new (kw_get kw "title" (PStr default_title))
              (kw_get kw "description" (PStr default_description))
              (kw_get kw "docs_url" (PStr "/docs")).

(** The API object that a successful [API(s, m, ..., **kw)] returns, with
    [r] its processor reference. *)
Definition built (s : string) (m : pyfun) (r : proc_ref) (kw : kwargs) : API :=
  {| server := {| api_type := upper s; model := m; data_processor := Some r |};
     app := add_routes (app_of_kwargs kw) (route_for (upper s)) |}.

(** Both slots of a processor rebound to partials over [kw]. *)
Definition bound_with (f g : pyfun) (kw : kwargs) : DataProcessor :=
  {| preprocess_fn := Some (partial_of f kw); postprocess_fn := Some (partial_of g kw) |}.

(** Sequencing of outcomes: the first exception wins. *)
Definition and_then {A B} (o : outcome A) (k : A -> outcome B) : outcome B :=
  match o with
  | inl e => inl e
  | inr a => k a
  end.

Definition served (e : event) : bool :=
  match e with EvServe _ => true | _ => false end.

(** The events of default resolution: the entry into
    [set_default_processor] and the rebinding of a slot. *)
Definition from_default (e : event) : bool :=
  match e with
  | EvResolve _ | EvBind _ _ => true
  | _ => false
  end.

(** How many times the server was started in a log. *)
Fixpoint serve_count (l : list event) : nat :=
  match l with
  | [] => 0
  | e :: r => (if served e then 1 else 0) + serve_count r
  end.





(** ** A scenario used in examples: two constructions in a row *)

Module Scenario.

Definition first_world : World :=
  logged (store_default Sample.echo_defaults VISION
            (bound_with Sample.echo_size Sample.echo_size Sample.image_size))
         [EvResolve "IMAGE-CLASSIFICATION";
          EvBind pre_slot Sample.image_size; EvBind post_slot Sample.image_size;
          EvRoute (POST "/api/predict-image" to_predict_image)].

Definition first_api : API :=
  built "image-classification" Sample.model (Default VISION) Sample.image_size.

Definition second_world : World :=
  logged (store_default first_world VISION
            (bound_with (partial_of Sample.echo_size Sample.image_size)
                        (partial_of Sample.echo_size Sample.image_size)
                        Sample.small_size))
         [EvResolve "OBJECT-DETECTION";
          EvBind pre_slot Sample.small_size; EvBind post_slot Sample.small_size].

Definition second_api : API :=
  built "object-detection" Sample.model (Default VISION) Sample.small_size.

Definition text_world : World :=
  logged (store_default Sample.defaults NLP
            (bound_with (Sample.tagged "nlp-pre") (Sample.tagged "nlp-post") ∅))
         [EvResolve "TEXT-CLASSIFICATION"; EvBind pre_slot ∅; EvBind post_slot ∅;
          EvRoute (POST "/api/predict-text" to_predict_text)].

Definition text_api : API :=
  built "text-classification" Sample.model (Default NLP) ∅.

End Scenario.

(** ** Python data: lemmas *)

Lemma upper_ascii_idem c : upper_ascii (upper_ascii c) = upper_ascii c.
Proof. destruct c as [[] [] [] [] [] [] [] []]; reflexivity. Qed.

Lemma upper_idem s : upper (upper s) = upper s.
Proof.
  induction s as [|c r IH]; simpl; [reflexivity|].
  now rewrite upper_ascii_idem, IH.
Qed.

Lemma tuple_mem_In x t : tuple_mem x t = true <-> In x t.
Proof.
  induction t as [|y r IH]; simpl.
  - split; [discriminate | tauto].
  - rewrite orb_true_iff, IH, String.eqb_eq. split; intros [H|H]; auto.
Qed.


(** ** Default resolution *)


Lemma set_default_processor_eq self w :
  set_default_processor self w =
  (logged w [EvResolve (api_type self)],
   match tag_category (api_type self) with
   | Some c => inr (with_processor self (Some (Default c)), Default c)
   | None => inl (not_implemented (api_type self))
   end).
Proof.
  unfold set_default_processor, tag_category, bind, emit, in_types, logged, ret, raise.
  simpl.
  destruct (String.eqb (api_type self) IMAGE_CLF),
           (String.eqb (api_type self) OBJECT_DETECTION),
           (String.eqb (api_type self) TXT_CLF),
           (String.eqb (api_type self) QNA); reflexivity.
Qed.

Lemma tag_category_vision t :
  tag_category t = Some VISION <-> t = IMAGE_CLF \/ t = OBJECT_DETECTION.
Proof.
  unfold tag_category. rewrite <- !String.eqb_eq.
  destruct (String.eqb t IMAGE_CLF), (String.eqb t OBJECT_DETECTION),
           (String.eqb t TXT_CLF), (String.eqb t QNA); simpl;
    split; try discriminate; try tauto; intros [?|?]; discriminate.
Qed.

Lemma tag_category_nlp t :
  tag_category t = Some NLP <-> t = TXT_CLF \/ t = QNA.
Proof.
  unfold tag_category. rewrite <- !String.eqb_eq.
  destruct (String.eqb t IMAGE_CLF) eqn:E1, (String.eqb t OBJECT_DETECTION) eqn:E2,
           (String.eqb t TXT_CLF) eqn:E3, (String.eqb t QNA) eqn:E4; simpl;
    split; try discriminate; try tauto; try (intros [?|?]; discriminate);
    apply String.eqb_eq in E3 || apply String.eqb_eq in E4; subst; discriminate.
Qed.

Lemma tag_category_none t :
  tag_category t = None <->
  t <> IMAGE_CLF /\ t <> OBJECT_DETECTION /\ t <> TXT_CLF /\ t <> QNA.
Proof.
  unfold tag_category. rewrite <- !String.eqb_neq.
  destruct (String.eqb t IMAGE_CLF), (String.eqb t OBJECT_DETECTION),
           (String.eqb t TXT_CLF), (String.eqb t QNA); simpl;
    split; try discriminate; try tauto; intros (?&?&?&?); discriminate.
Qed.

(** ** Route registration *)

(** The second half of [setup_api]: the dispatch on the stored tag. *)
Lemma setup_api_supplied self kw w r :
  data_processor (server self) = Some r ->
  setup_api self kw w =
  (logged w (map EvRoute (route_for (api_type (server self)))),
   inr {| server := server self;
          app := add_routes (app self) (route_for (api_type (server self))) |}).
Proof.
  intros Hr. unfold setup_api, bind. rewrite Hr. simpl.
  unfold route_for, app_post, bind, emit, ret, add_routes, logged.
  destruct self as [srv a]; destruct a; destruct w; simpl.
  destruct (String.eqb (api_type srv) IMAGE_CLF); [reflexivity|].
  destruct (String.eqb (api_type srv) TXT_CLF); [reflexivity|].
  destruct (String.eqb (api_type srv) QNA); [reflexivity|].
  simpl. now rewrite !app_nil_r.
Qed.

(** [setup_api] on a server without processor, when the default's two
    slots hold callables. *)
Lemma setup_api_default self kw w c f g :
  data_processor (server self) = None ->
  tag_category (api_type (server self)) = Some c ->
  default_of w c = {| preprocess_fn := Some f; postprocess_fn := Some g |} ->
  setup_api self kw w =
  (logged (store_default w c (bound_with f g kw))
          ([EvResolve (api_type (server self));
            EvBind pre_slot kw; EvBind post_slot kw]
           ++ map EvRoute (route_for (api_type (server self)))),
   inr {| server := with_processor (server self) (Some (Default c));
          app := add_routes (app self) (route_for (api_type (server self))) |}).
Proof.
  intros Hn Hc Hd. unfold setup_api, bind at 1 2.
  rewrite Hn. cbn [is_None]. rewrite set_default_processor_eq, Hc.
  destruct self as [srv a]; destruct a; destruct w as [v n l]; simpl in *.
  unfold rebind, bind, get_attr, lift, set_attr, emit, ret, logged, bound_with.
  destruct c; simpl in *; subst; simpl;
    unfold route_for, app_post, bind, emit, ret, add_routes; simpl;
    destruct (String.eqb (api_type srv) IMAGE_CLF);
    [| destruct (String.eqb (api_type srv) TXT_CLF);
       [| destruct (String.eqb (api_type srv) QNA)] ..];
    simpl; rewrite <- ?app_assoc, ?app_nil_r; reflexivity.
Qed.

(** An unrecognised stored tag and no processor: the resolution raises. *)
Lemma setup_api_unknown self kw w :
  data_processor (server self) = None ->
  tag_category (api_type (server self)) = None ->
  setup_api self kw w =
  (logged w [EvResolve (api_type (server self))],
   inl (not_implemented (api_type (server self)))).
Proof.
  intros Hn Hc. unfold setup_api, bind at 1 2.
  rewrite Hn. cbn [is_None]. now rewrite set_default_processor_eq, Hc.
Qed.

(** ** Construction *)

Lemma API_init_supplied s m pre post kw w :
  is_None (py_or pre post) = false ->
  API_init s m pre post kw w =
  (logged w (map EvRoute (route_for (upper s))),
   inr (built s m (Own {| preprocess_fn := pre; postprocess_fn := post |}) kw)).
Proof.
  intros Hs. unfold API_init, ModelServer_init, set_data_processor.
  rewrite Hs. simpl. erewrite setup_api_supplied by reflexivity. reflexivity.
Qed.

Lemma API_init_default s m kw w c f g :
  tag_category (upper s) = Some c ->
  default_of w c = {| preprocess_fn := Some f; postprocess_fn := Some g |} ->
  API_init s m None None kw w =
  (logged (store_default w c (bound_with f g kw))
          ([EvResolve (upper s); EvBind pre_slot kw; EvBind post_slot kw]
           ++ map EvRoute (route_for (upper s))),
   inr (built s m (Default c) kw)).
Proof.
  intros Hc Hd. unfold API_init, ModelServer_init. simpl.
  erewrite setup_api_default; [reflexivity | reflexivity | exact Hc | exact Hd].
Qed.

Lemma API_init_unknown s m kw w :
  tag_category (upper s) = None ->
  API_init s m None None kw w =
  (logged w [EvResolve (upper s)], inl (not_implemented (upper s))).
Proof.
  intros Hc. unfold API_init, ModelServer_init. simpl.
  now rewrite setup_api_unknown.
Qed.

(** ** Claims on default resolution and the task tag *)

(** C1. For every task tag given to the constructor,
    [set_default_processor] selects [DefaultProcessor.vision] when the
    uppercased tag is IMAGE-CLASSIFICATION or OBJECT-DETECTION, selects
    [DefaultProcessor.nlp] when it is TEXT-CLASSIFICATION or QUESTION-ANS,
    and for every other string raises instead of returning. *)
Theorem set_default_processor_by_tag s m pre post kw w :
  let self := ModelServer_init s m pre post kw in
  let w1 := logged w [EvResolve (upper s)] in
  ((upper s = IMAGE_CLF \/ upper s = OBJECT_DETECTION) ->
     set_default_processor self w =
       (w1, inr (with_processor self (Some (Default VISION)), Default VISION))
     /\ deref w1 (Default VISION) = vision w) /\
  ((upper s = TXT_CLF \/ upper s = QNA) ->
     set_default_processor self w =
       (w1, inr (with_processor self (Some (Default NLP)), Default NLP))
     /\ deref w1 (Default NLP) = nlp w) /\
  ((upper s <> IMAGE_CLF /\ upper s <> OBJECT_DETECTION /\
    upper s <> TXT_CLF /\ upper s <> QNA) ->
     set_default_processor self w = (w1, inl (not_implemented (upper s)))).
Proof.
  intros self w1. subst self w1. rewrite set_default_processor_eq.
  cbn [ModelServer_init api_type].
  split; [|split]; intros H.
  - apply tag_category_vision in H. rewrite H. split; reflexivity.
  - apply tag_category_nlp in H. rewrite H. split; reflexivity.
  - apply tag_category_none in H. rewrite H. reflexivity.
Qed.

Lemma set_default_processor_by_tag_witness :
  set_default_processor
    (ModelServer_init "object-detection" Sample.model None None ∅) Sample.defaults
  = (logged Sample.defaults [EvResolve "OBJECT-DETECTION"],
     inr (with_processor (ModelServer_init "object-detection" Sample.model None None ∅)
            (Some (Default VISION)), Default VISION))
  /\ (exists e, set_default_processor
        (ModelServer_init "segmentation" Sample.model None None ∅) Sample.defaults
      = (logged Sample.defaults [EvResolve "SEGMENTATION"], inl e)).
Proof.
  split.
  - apply (proj1 (set_default_processor_by_tag "object-detection" Sample.model
                    None None ∅ Sample.defaults)).
    right; reflexivity.
  - eexists.
    apply (proj2 (proj2 (set_default_processor_by_tag "segmentation" Sample.model
                           None None ∅ Sample.defaults))).
    repeat split; discriminate.
Defined.

(** C10. The task tag is case-insensitive at the constructors: building
    a ModelServer or an API from [s] or from [s.upper()] gives the same
    stored tag, the same default resolution and the same construction
    (object, routes and effects). *)
Theorem api_type_case_insensitive s m pre post kw w :
  api_type (ModelServer_init s m pre post kw) = upper s /\
  ModelServer_init (upper s) m pre post kw = ModelServer_init s m pre post kw /\
  set_default_processor (ModelServer_init (upper s) m pre post kw) w =
    set_default_processor (ModelServer_init s m pre post kw) w /\
  API_init (upper s) m pre post kw w = API_init s m pre post kw w /\
  (forall run, create_api m (upper s) pre post run kw w =
               create_api m s pre post run kw w).
Proof.
  assert (E : ModelServer_init (upper s) m pre post kw
              = ModelServer_init s m pre post kw).
  { unfold ModelServer_init. now rewrite upper_idem. }
  assert (E' : API_init (upper s) m pre post kw w = API_init s m pre post kw w).
  { unfold API_init. now rewrite E. }
  repeat split; try reflexivity; try assumption.
  - now rewrite E.
  - intros run. unfold create_api, bind. now rewrite E'.
Qed.

(** [setup_api] on a server without processor, when a slot of the
    default holds no callable: [partial] raises, after the resolution. *)
Lemma setup_api_uncallable self kw w c :
  data_processor (server self) = None ->
  tag_category (api_type (server self)) = Some c ->
  preprocess_fn (default_of w c) = None \/ postprocess_fn (default_of w c) = None ->
  exists w' l,
    setup_api self kw w = (w', inl (TypeError "the first argument must be callable"))
    /\ log w' = log w ++ EvResolve (api_type (server self)) :: l
    /\ forallb (fun e => negb (served e)) l = true.
Proof.
  intros Hn Hc Hd. unfold setup_api, bind at 1 2.
  rewrite Hn. cbn [is_None]. rewrite set_default_processor_eq, Hc.
  destruct w as [[vf vg] [nf ng] l].
  unfold rebind, bind, get_attr, lift, set_attr, emit, ret, logged.
  destruct c; simpl in *.
  - destruct vf as [f|]; simpl.
    + destruct vg as [g|]; simpl; [destruct Hd; discriminate|].
      eexists _, [EvBind pre_slot kw]. simpl. rewrite <- app_assoc. repeat split.
    + eexists _, []. repeat split.
  - destruct nf as [f|]; simpl.
    + destruct ng as [g|]; simpl; [destruct Hd; discriminate|].
      eexists _, [EvBind pre_slot kw]. simpl. rewrite <- app_assoc. repeat split.
    + eexists _, []. repeat split.
Qed.

Lemma API_init_uncallable s m kw w c :
  tag_category (upper s) = Some c ->
  preprocess_fn (default_of w c) = None \/ postprocess_fn (default_of w c) = None ->
  exists w' l,
    API_init s m None None kw w
      = (w', inl (TypeError "the first argument must be callable"))
    /\ log w' = log w ++ EvResolve (upper s) :: l
    /\ forallb (fun e => negb (served e)) l = true.
Proof.
  intros Hc Hd. unfold API_init.
  exact (setup_api_uncallable
           {| server := ModelServer_init s m None None kw;
              app := app_of_kwargs kw |} kw w c eq_refl Hc Hd).
Qed.

(** A construction without processor succeeds only through the default
    of the tag's category, whose two slots it rebinds. *)
Lemma API_init_none_inv s m kw w w' api :
  API_init s m None None kw w = (w', inr api) ->
  exists c f g,
    tag_category (upper s) = Some c /\
    default_of w c = {| preprocess_fn := Some f; postprocess_fn := Some g |} /\
    w' = logged (store_default w c (bound_with f g kw))
           ([EvResolve (upper s); EvBind pre_slot kw; EvBind post_slot kw]
            ++ map EvRoute (route_for (upper s))) /\
    api = built s m (Default c) kw.
Proof.
  intros H.
  destruct (tag_category (upper s)) as [c|] eqn:Hc.
  - destruct (default_of w c) as [[f|] [g|]] eqn:Hd.
    + rewrite (API_init_default s m kw w c f g Hc Hd) in H.
      inversion H; subst. exists c, f, g. repeat split; assumption.
    + destruct (API_init_uncallable s m kw w c Hc) as (w2 & l & E & _);
        [rewrite Hd; now right | rewrite E in H; discriminate].
    + destruct (API_init_uncallable s m kw w c Hc) as (w2 & l & E & _);
        [rewrite Hd; now left | rewrite E in H; discriminate].
    + destruct (API_init_uncallable s m kw w c Hc) as (w2 & l & E & _);
        [rewrite Hd; now left | rewrite E in H; discriminate].
  - rewrite (API_init_unknown s m kw w Hc) in H. discriminate.
Qed.

Lemma route_events_only t :
  existsb from_default (map EvRoute (route_for t)) = false /\
  existsb served (map EvRoute (route_for t)) = false.
Proof.
  unfold route_for.
  destruct (String.eqb t IMAGE_CLF); [split; reflexivity|].
  destruct (String.eqb t TXT_CLF); [split; reflexivity|].
  destruct (String.eqb t QNA); split; reflexivity.
Qed.


(** ** Claims on the supplied processor *)

(** C5. When both a preprocess and a postprocess function are supplied,
    construction always succeeds without default resolution: the only
    events are route registrations, the two category defaults are left
    as they were, the installed processor is exactly the supplied pair,
    and the API object built does not depend on the defaults. *)
Theorem supplied_pair_skips_default s m pre post kw w :
  let supplied := {| preprocess_fn := Some pre; postprocess_fn := Some post |} in
  let r := API_init s m (Some pre) (Some post) kw w in
  exists api new,
    r = (logged w new, inr api) /\
    existsb from_default new = false /\
    vision (fst r) = vision w /\ nlp (fst r) = nlp w /\
    data_processor (server api) = Some (Own supplied) /\
    (forall w2, snd (API_init s m (Some pre) (Some post) kw w2) = inr api).
Proof.
  intros supplied r. subst r.
  exists (built s m (Own supplied) kw), (map EvRoute (route_for (upper s))).
  rewrite API_init_supplied by reflexivity.
  repeat split; try reflexivity.
  - apply route_events_only.
  - intros w2. now rewrite API_init_supplied.
Qed.



(** ** Claims on unrecognised tags *)

Lemma not_implemented_message t :
  not_implemented t =
  UserWarning (t +:+ " is not implemented! Available types are - ['IMAGE-CLASSIFICATION', 'OBJECT-DETECTION', 'TEXT-CLASSIFICATION', 'QUESTION-ANS']").
Proof. reflexivity. Qed.




(** ** Claims on routes and on the factory *)

Lemma setup_api_routes self kw w w' self' :
  setup_api self kw w = (w', inr self') ->
  routes (app self') = routes (app self) ++ route_for (api_type (server self)).
Proof.
  intros H.
  destruct (data_processor (server self)) as [r|] eqn:Hr.
  - rewrite (setup_api_supplied self kw w r Hr) in H. now inversion H.
  - destruct (tag_category (api_type (server self))) as [c|] eqn:Hc.
    + destruct (default_of w c) as [[f|] [g|]] eqn:Hd.
      * rewrite (setup_api_default self kw w c f g Hr Hc Hd) in H. now inversion H.
      * destruct (setup_api_uncallable self kw w c Hr Hc) as (w2 & l & E & _);
          [rewrite Hd; now right | rewrite E in H; discriminate].
      * destruct (setup_api_uncallable self kw w c Hr Hc) as (w2 & l & E & _);
          [rewrite Hd; now left | rewrite E in H; discriminate].
      * destruct (setup_api_uncallable self kw w c Hr Hc) as (w2 & l & E & _);
          [rewrite Hd; now left | rewrite E in H; discriminate].
    + rewrite (setup_api_unknown self kw w Hr Hc) in H. discriminate.
Qed.

(** C6. [setup_api] leaves the route table of the application unchanged
    for the OBJECT-DETECTION tag, and for each of the three other
    recognised tags appends exactly one POST route, at /api/predict-image,
    /api/predict-text and /api/QnA. *)
Theorem object_detection_registers_no_route self kw w w' self' :
  setup_api self kw w = (w', inr self') ->
  (api_type (server self) = OBJECT_DETECTION ->
     routes (app self') = routes (app self)) /\
  (api_type (server self) = IMAGE_CLF ->
     routes (app self') =
     routes (app self) ++ [{| methods := ["POST"]; path := "/api/predict-image";
                              handler := to_predict_image |}]) /\
  (api_type (server self) = TXT_CLF ->
     routes (app self') =
     routes (app self) ++ [{| methods := ["POST"]; path := "/api/predict-text";
                              handler := to_predict_text |}]) /\
  (api_type (server self) = QNA ->
     routes (app self') =
     routes (app self) ++ [{| methods := ["POST"]; path := "/api/QnA";
                              handler := to_predict_question_answer |}]).
Proof.
  intros H. apply setup_api_routes in H. rewrite H.
  repeat split; intros ->; try reflexivity.
  simpl. now rewrite app_nil_r.
Qed.

Lemma object_detection_registers_no_route_witness :
  routes (app (built "object-detection" Sample.model (Default VISION) ∅)) = [] /\
  routes (app (built "question-ans" Sample.model (Default NLP) ∅))
  = [{| methods := ["POST"]; path := "/api/QnA";
        handler := to_predict_question_answer |}].
Proof.
  split.
  - refine (proj1 (object_detection_registers_no_route
             {| server := ModelServer_init "object-detection" Sample.model None None ∅;
                app := app_of_kwargs ∅ |} ∅ Sample.defaults
             (logged (store_default Sample.defaults VISION
                        (bound_with (Sample.tagged "vision-pre")
                                    (Sample.tagged "vision-post") ∅))
                     [EvResolve "OBJECT-DETECTION"; EvBind pre_slot ∅; EvBind post_slot ∅])
             (built "object-detection" Sample.model (Default VISION) ∅) _) _);
      reflexivity.
  - refine (proj2 (proj2 (proj2 (object_detection_registers_no_route
             {| server := ModelServer_init "question-ans" Sample.model None None ∅;
                app := app_of_kwargs ∅ |} ∅ Sample.defaults
             (logged (store_default Sample.defaults NLP
                        (bound_with (Sample.tagged "nlp-pre")
                                    (Sample.tagged "nlp-post") ∅))
                     [EvResolve "QUESTION-ANS"; EvBind pre_slot ∅; EvBind post_slot ∅;
                      EvRoute (POST "/api/QnA" to_predict_question_answer)])
             (built "question-ans" Sample.model (Default NLP) ∅) _))) _);
      reflexivity.
Defined.

Lemma serve_count_app l1 l2 :
  serve_count (l1 ++ l2) = serve_count l1 + serve_count l2.
Proof. induction l1 as [|e r IH]; simpl; [reflexivity | rewrite IH; lia]. Qed.

Lemma serve_count_quiet l :
  forallb (fun e => negb (served e)) l = true -> serve_count l = 0.
Proof.
  induction l as [|e r IH]; simpl; [reflexivity|].
  intros H. apply andb_true_iff in H as [He Hr].
  destruct (served e); [discriminate | now rewrite IH].
Qed.

Lemma serve_count_routes t : serve_count (map EvRoute (route_for t)) = 0.
Proof.
  unfold route_for.
  destruct (String.eqb t IMAGE_CLF); [reflexivity|].
  destruct (String.eqb t TXT_CLF); [reflexivity|].
  destruct (String.eqb t QNA); reflexivity.
Qed.

(** Construction never starts the server, whether it returns or raises. *)
Lemma API_init_no_serve s m pre post kw w :
  serve_count (log (fst (API_init s m pre post kw w))) = serve_count (log w).
Proof.
  destruct (is_None (py_or pre post)) eqn:Hs.
  - assert (pre = None /\ post = None) as [-> ->].
    { destruct pre, post; try discriminate. now split. }
    destruct (tag_category (upper s)) as [c|] eqn:Hc.
    + destruct (default_of w c) as [[f|] [g|]] eqn:Hd.
      * rewrite (API_init_default s m kw w c f g Hc Hd).
        destruct c; simpl; rewrite serve_count_app; simpl;
          rewrite serve_count_routes; lia.
      * destruct (API_init_uncallable s m kw w c Hc) as (w2 & l & E & Hl & Hq);
          [rewrite Hd; now right |].
        rewrite E; simpl. rewrite Hl, serve_count_app. simpl.
        rewrite (serve_count_quiet _ Hq). lia.
      * destruct (API_init_uncallable s m kw w c Hc) as (w2 & l & E & Hl & Hq);
          [rewrite Hd; now left |].
        rewrite E; simpl. rewrite Hl, serve_count_app. simpl.
        rewrite (serve_count_quiet _ Hq). lia.
      * destruct (API_init_uncallable s m kw w c Hc) as (w2 & l & E & Hl & Hq);
          [rewrite Hd; now left |].
        rewrite E; simpl. rewrite Hl, serve_count_app. simpl.
        rewrite (serve_count_quiet _ Hq). lia.
    + rewrite (API_init_unknown s m kw w Hc). simpl.
      rewrite serve_count_app. simpl. lia.
  - rewrite (API_init_supplied s m pre post kw w Hs). simpl.
    rewrite serve_count_app, serve_count_routes. lia.
Qed.




(** ** Claims on the bound defaults *)

Lemma merge_kw_keeps (kw kw' : kwargs) k :
  is_Some (kw !! k) -> is_Some (merge_kw kw kw' !! k).
Proof.
  unfold merge_kw. intros [v Hv].
  destruct (kw' !! k) as [v'|] eqn:E.
  - exists v'. now apply lookup_union_Some_l.
  - exists v. rewrite lookup_union_r; assumption.
Qed.

Lemma merge_kw_value (kw kw' : kwargs) k :
  kw' !! k = None -> merge_kw kw kw' !! k = kw !! k.
Proof. unfold merge_kw. intros E. now rewrite lookup_union_r. Qed.

Lemma merge_kw_empty (kw : kwargs) : merge_kw kw ∅ = kw.
Proof. unfold merge_kw. apply (left_id_L ∅ (∪)). Qed.

(** C8. Whenever an API is constructed with no processor supplied, the
    default of the tag's category is selected and the construction
    keywords are bound by partial application into its preprocess and
    then its postprocess function, all before any route is registered;
    the API holds a reference to that default, and every call of either
    bound function passes the keywords on: each bound key reaches the
    underlying function, with the bound value unless the call itself
    gives that key, and a call without keywords passes exactly the
    bound ones. *)
Theorem defaults_bound_before_routes s m kw w w' api :
  API_init s m None None kw w = (w', inr api) ->
  exists c f g,
    tag_category (upper s) = Some c /\
    default_of w c = {| preprocess_fn := Some f; postprocess_fn := Some g |} /\
    data_processor (server api) = Some (Default c) /\
    deref w' (Default c) =
      {| preprocess_fn := Some (partial_of f kw);
         postprocess_fn := Some (partial_of g kw) |} /\
    log w' = log w ++ [EvResolve (upper s); EvBind pre_slot kw; EvBind post_slot kw]
                   ++ map EvRoute (routes (app api)) /\
    (forall x kw',
       partial_of f kw x kw' = f x (merge_kw kw kw') /\
       partial_of g kw x kw' = g x (merge_kw kw kw')) /\
    (forall kw' k,
       is_Some (kw !! k) ->
       is_Some (merge_kw kw kw' !! k) /\
       (kw' !! k = None -> merge_kw kw kw' !! k = kw !! k)) /\
    (forall x,
       call (Some (partial_of f kw)) x = f x kw /\
       call (Some (partial_of g kw)) x = g x kw).
Proof.
  intros H.
  apply API_init_none_inv in H as (c & f & g & Hc & Hd & -> & ->).
  exists c, f, g.
  split; [exact Hc|]. split; [exact Hd|]. split; [reflexivity|].
  split; [destruct c; reflexivity|].
  split; [destruct c; reflexivity|].
  split; [intros; split; reflexivity|].
  split.
  - intros kw' k Hk. split; [now apply merge_kw_keeps | apply merge_kw_value].
  - intros x. unfold call, partial_of. now rewrite merge_kw_empty.
Qed.

(** The default is one shared object: a later construction without
    processor rebinds it again, and an API built earlier, which holds the
    same reference, then passes the later value of a key bound twice. *)
Lemma later_construction_rebinds_shared_default :
  exists w1 a1 w2 a2,
    API_init "image-classification" Sample.model None None Sample.image_size
             Sample.echo_defaults = (w1, inr a1) /\
    API_init "object-detection" Sample.model None None Sample.small_size w1
    = (w2, inr a2) /\
    data_processor (server a1) = Some (Default VISION) /\
    data_processor (server a2) = Some (Default VISION) /\
    call (preprocess_fn (deref w1 (Default VISION))) PNone
    = inr (PTuple [PInt 224; PInt 224]) /\
    call (preprocess_fn (deref w2 (Default VISION))) PNone
    = inr (PTuple [PInt 32; PInt 32]).
Proof.
  eexists _, _, _, _. split; [reflexivity|]. split; [reflexivity|].
  repeat split; vm_compute; reflexivity.
Qed.

Lemma defaults_bound_before_routes_witness :
  exists c f g,
    tag_category (upper "image-classification") = Some c /\
    default_of Sample.defaults c
      = {| preprocess_fn := Some f; postprocess_fn := Some g |} /\
    data_processor
      (server (built "image-classification" Sample.model (Default VISION)
                     Sample.image_size)) = Some (Default c).
Proof.
  destruct (defaults_bound_before_routes "image-classification" Sample.model
              Sample.image_size Sample.defaults
              (logged (store_default Sample.defaults VISION
                         (bound_with (Sample.tagged "vision-pre")
                                     (Sample.tagged "vision-post") Sample.image_size))
                      [EvResolve "IMAGE-CLASSIFICATION";
                       EvBind pre_slot Sample.image_size;
                       EvBind post_slot Sample.image_size;
                       EvRoute (POST "/api/predict-image" to_predict_image)])
              (built "image-classification" Sample.model (Default VISION)
                     Sample.image_size) eq_refl)
    as (c & f & g & Hc & Hd & Hp & _).
  exists c, f, g. repeat split; assumption.
Defined.

(** ** Claims on the handlers *)

(** C2. For every uploaded content, model and installed pair of
    functions, the image handler applies preprocess, the model and
    postprocess in that order, with no condition on any of them, and
    its outcome is postprocess(model(preprocess(B))), an exception of
    one of the three ending the run. *)
Theorem predict_image_composes w self r pre post B :
  data_processor (server self) = Some r ->
  deref w r = {| preprocess_fn := Some pre; postprocess_fn := Some post |} ->
  snd (predict_image w self B) =
    and_then (pre (PBytes B) ∅)
      (fun x => and_then (model (server self) x ∅) (fun y => post y ∅)) /\
  (exists t, fst (predict_image w self B) = Step Preprocess (PBytes B) :: t) /\
  (forall x y, pre (PBytes B) ∅ = inr x -> model (server self) x ∅ = inr y ->
     fst (predict_image w self B)
     = [Step Preprocess (PBytes B); Step Model x; Step Postprocess y]).
Proof.
  intros Hr Hd. unfold predict_image, processor_of. rewrite Hr, Hd. simpl.
  destruct (pre (PBytes B) ∅) as [e|x] eqn:Ex; simpl.
  - repeat split; [eauto | discriminate].
  - destruct (model (server self) x ∅) as [e|y] eqn:Ey; simpl.
    + repeat split; [eauto|]. intros x' y' [= <-]. rewrite Ey. discriminate.
    + destruct (post y ∅) as [e|z]; simpl;
        (repeat split; [eauto|]; intros x' y' [= <-]; rewrite Ey; now intros [= <-]).
Qed.

Lemma predict_image_composes_witness :
  snd (predict_image Sample.defaults
         (built "image-classification" Sample.model
            (Own {| preprocess_fn := Some Sample.pre;
                    postprocess_fn := Some Sample.post |}) ∅) [])
  = inr (PTuple [PStr "post";
                 PTuple [PStr "model"; PTuple [PStr "pre"; PBytes []; PInt 0]; PInt 0];
                 PInt 0]).
Proof.
  exact (proj1 (predict_image_composes Sample.defaults
                  (built "image-classification" Sample.model
                     (Own {| preprocess_fn := Some Sample.pre;
                             postprocess_fn := Some Sample.post |}) ∅)
                  (Own {| preprocess_fn := Some Sample.pre;
                          postprocess_fn := Some Sample.post |})
                  Sample.pre Sample.post [] eq_refl eq_refl)).
Defined.

(** The text handlers, by the content of the installed processor. *)
Lemma predict_with_eq w self r x :
  data_processor (server self) = Some r ->
  predict_with w self x =
  (x1 <~ match preprocess_fn (deref w r) with
         | Some f => invoke Preprocess (Some f) x
         | None => hret x
         end;;
   y <~ invoke Model (Some (model (server self))) x1;;
   match postprocess_fn (deref w r) with
   | Some g => invoke Postprocess (Some g) y
   | None => hret y
   end).
Proof.
  intros Hr. unfold predict_with, processor_of, DataProcessor_preprocess,
    DataProcessor_postprocess. rewrite Hr. simpl.
  destruct (preprocess_fn (deref w r)) as [f|],
           (postprocess_fn (deref w r)) as [g|]; simpl.
  - destruct (f x ∅); simpl; [reflexivity|].
    destruct (model (server self) p ∅); simpl; [reflexivity|].
    destruct (g p0 ∅); reflexivity.
  - destruct (f x ∅); simpl; [reflexivity|].
    destruct (model (server self) p ∅); reflexivity.
  - destruct (model (server self) x ∅); simpl; [reflexivity|].
    destruct (g p ∅); reflexivity.
  - destruct (model (server self) x ∅); reflexivity.
Qed.




(** * Further properties of the module *)

(** ** What a successful construction returns *)

Lemma API_init_inv s m pre post kw w w' api :
  API_init s m pre post kw w = (w', inr api) ->
  (is_None (py_or pre post) = false /\
   w' = logged w (map EvRoute (route_for (upper s))) /\
   api = built s m (Own {| preprocess_fn := pre; postprocess_fn := post |}) kw) \/
  (pre = None /\ post = None /\
   exists c f g,
     tag_category (upper s) = Some c /\
     default_of w c = {| preprocess_fn := Some f; postprocess_fn := Some g |} /\
     w' = logged (store_default w c (bound_with f g kw))
            ([EvResolve (upper s); EvBind pre_slot kw; EvBind post_slot kw]
             ++ map EvRoute (route_for (upper s))) /\
     api = built s m (Default c) kw).
Proof.
  intros H. destruct (is_None (py_or pre post)) eqn:Hs.
  - right. assert (pre = None /\ post = None) as [-> ->].
    { destruct pre, post; try discriminate. now split. }
    repeat split. now apply API_init_none_inv.
  - left. rewrite (API_init_supplied s m pre post kw w Hs) in H.
    inversion H; subst. repeat split.
Qed.

Lemma deref_logged_store w c p l : deref (logged (store_default w c p) l) (Default c) = p.
Proof. destruct c; reflexivity. Qed.

(** X1. The tags listed by [get_available_api_types], which the error
    message prints, are exactly the stored tags on which
    [set_default_processor] returns; on every other tag it raises the
    not-implemented warning. *)
Theorem available_types_are_the_resolvable_tags self w :
  (In (api_type self) get_available_api_types <->
   exists r, snd (set_default_processor self w) = inr r) /\
  (~ In (api_type self) get_available_api_types <->
   snd (set_default_processor self w) = inl (not_implemented (api_type self))).
Proof.
  rewrite set_default_processor_eq. cbn [snd].
  assert (Hin : In (api_type self) get_available_api_types <->
                tag_category (api_type self) <> None).
  { change get_available_api_types
      with [IMAGE_CLF; OBJECT_DETECTION; TXT_CLF; QNA]. simpl. split.
    - intros H Hc. apply tag_category_none in Hc as (H1 & H2 & H3 & H4).
      destruct H as [H|[H|[H|[H|[]]]]]; symmetry in H; contradiction.
    - intros H. destruct (tag_category (api_type self)) as [[|]|] eqn:Hc.
      + apply tag_category_vision in Hc as [->| ->]; auto.
      + apply tag_category_nlp in Hc as [->| ->]; auto.
      + contradiction. }
  rewrite Hin. destruct (tag_category (api_type self)) as [c|]; split; split.
  - eauto.
  - discriminate.
  - intros H; exfalso; apply H; discriminate.
  - discriminate.
  - intros H; contradiction.
  - intros [r Hr]; discriminate.
  - reflexivity.
  - intros _ H; contradiction.
Qed.

(** ** Handlers of an API built with supplied functions *)






(** ** The shared defaults across constructions *)

(** X5. The category default is one object shared by every API built
    without functions: when a second such API of the same category is
    built, the slots are rebound again, and from then on the handler of
    the first API passes the keywords of both constructions, those of
    the second overriding those of the first. *)
Theorem shared_default_rebound_by_later_construction
    s1 s2 m1 m2 k1 k2 w w1 a1 w2 a2 q :
  API_init s1 m1 None None k1 w = (w1, inr a1) ->
  API_init s2 m2 None None k2 w1 = (w2, inr a2) ->
  tag_category (upper s1) = tag_category (upper s2) ->
  exists c f g,
    default_of w c = {| preprocess_fn := Some f; postprocess_fn := Some g |} /\
    data_processor (server a1) = Some (Default c) /\
    data_processor (server a2) = Some (Default c) /\
    snd (predict_text w1 a1 q) =
      and_then (f (PStr q) k1)
        (fun x => and_then (m1 x ∅) (fun y => g y k1)) /\
    snd (predict_text w2 a1 q) =
      and_then (f (PStr q) (merge_kw k1 k2))
        (fun x => and_then (m1 x ∅) (fun y => g y (merge_kw k1 k2))).
Proof.
  intros H1 H2 Hc.
  apply API_init_none_inv in H1 as (c & f & g & Hc1 & Hd1 & -> & ->).
  apply API_init_none_inv in H2 as (c2 & f2 & g2 & Hc2 & Hd2 & -> & ->).
  rewrite Hc1, Hc2 in Hc. injection Hc as <-.
  change (default_of ?w c) with (deref w (Default c)) in Hd2.
  rewrite deref_logged_store in Hd2. injection Hd2 as <- <-.
  exists c, f, g. split; [exact Hd1|]. split; [reflexivity|]. split; [reflexivity|].
  unfold predict_text.
  rewrite !(predict_with_eq _ _ (Default c)) by reflexivity.
  rewrite !deref_logged_store.
  cbn [bound_with preprocess_fn postprocess_fn built server model].
  unfold invoke, hbind, partial_of. cbn beta.
  rewrite !merge_kw_empty.
  split.
  - destruct (f (PStr q) k1) as [e|x]; simpl; [reflexivity|].
    destruct (m1 x ∅) as [e|y]; simpl; [reflexivity|].
    destruct (g y k1); reflexivity.
  - destruct (f (PStr q) (merge_kw k1 k2)) as [e|x]; simpl; [reflexivity|].
    destruct (m1 x ∅) as [e|y]; simpl; [reflexivity|].
    destruct (g y (merge_kw k1 k2)); reflexivity.
Qed.

Lemma shared_default_rebound_by_later_construction_witness :
  exists c f g,
    default_of Sample.echo_defaults c
    = {| preprocess_fn := Some f; postprocess_fn := Some g |} /\
    data_processor (server Scenario.first_api) = Some (Default c) /\
    data_processor (server Scenario.second_api) = Some (Default c) /\
    snd (predict_text Scenario.first_world Scenario.first_api "q") =
      and_then (f (PStr "q") Sample.image_size)
        (fun x => and_then (Sample.model x ∅) (fun y => g y Sample.image_size)) /\
    snd (predict_text Scenario.second_world Scenario.first_api "q") =
      and_then (f (PStr "q") (merge_kw Sample.image_size Sample.small_size))
        (fun x => and_then (Sample.model x ∅)
           (fun y => g y (merge_kw Sample.image_size Sample.small_size))).
Proof.
  exact (shared_default_rebound_by_later_construction
           "image-classification" "object-detection" Sample.model Sample.model
           Sample.image_size Sample.small_size Sample.echo_defaults
           Scenario.first_world Scenario.first_api
           Scenario.second_world Scenario.second_api "q"
           eq_refl eq_refl eq_refl).
Defined.




(** ** The factory and the application object *)

(** X7. When the construction raises, [create_api] raises the same
    exception in the same state whatever [run] is: the server is not
    started. *)
Theorem create_api_failure_starts_nothing m s pre post kw w w' e run :
  API_init s m pre post kw w = (w', inl e) ->
  create_api m s pre post run kw w = (w', inl e) /\
  serve_count (log w') = serve_count (log w).
Proof.
  intros H. split.
  - unfold create_api, bind. now rewrite H.
  - pose proof (API_init_no_serve s m pre post kw w) as Hq.
    now rewrite H in Hq.
Qed.

Lemma create_api_failure_starts_nothing_witness :
  create_api Sample.model "segmentation" None None true ∅ Sample.defaults
  = (logged Sample.defaults [EvResolve "SEGMENTATION"],
     inl (not_implemented "SEGMENTATION")).
Proof.
  exact (proj1 (create_api_failure_starts_nothing Sample.model "segmentation"
                  None None ∅ Sample.defaults _ _ true eq_refl)).
Defined.

Lemma kw_get_Some (kw : kwargs) k d v : kw !! k = Some v -> kw_get kw k d = v.
Proof. unfold kw_get. now intros ->. Qed.

Lemma kw_get_None (kw : kwargs) k d : kw !! k = None -> kw_get kw k d = d.
Proof. unfold kw_get. now intros ->. Qed.

(** X8. The application object takes its title, description and
    documentation URL from the keywords, with the module's defaults for
    the missing ones ("/docs" for the URL).  These keywords are read,
    not removed: when the API is built without functions they are bound
    into the default processor with the rest, so the default preprocess
    receives them on every call of a handler. *)
Theorem metadata_keywords_are_read_and_bound s m pre post kw w w' api :
  API_init s m pre post kw w = (w', inr api) ->
  (forall v, kw !! "title" = Some v -> title (app api) = v) /\
  (kw !! "title" = None -> title (app api) = PStr default_title) /\
  (forall v, kw !! "description" = Some v -> description (app api) = v) /\
  (kw !! "description" = None ->
     description (app api) = PStr default_description) /\
  (forall v, kw !! "docs_url" = Some v -> docs_url (app api) = v) /\
  (kw !! "docs_url" = None -> docs_url (app api) = PStr "/docs") /\
  (pre = None -> post = None ->
   exists c f,
     data_processor (server api) = Some (Default c) /\
     preprocess_fn (default_of w c) = Some f /\
     forall x k v, In k ["title"; "description"; "docs_url"] ->
       kw !! k = Some v ->
       exists received,
         call (preprocess_fn (deref w' (Default c))) x = f x received /\
         received !! k = Some v).
Proof.
  intros H.
  assert (Ha : app api = add_routes (app_of_kwargs kw) (route_for (upper s))).
  { apply API_init_inv in H as [(_ & _ & ->)|(_ & _ & c & f & g & _ & _ & _ & ->)];
      reflexivity. }
  rewrite Ha. cbn [add_routes app_of_kwargs FastAPI_new title description docs_url].
  split; [intros v; apply kw_get_Some|].
  split; [apply kw_get_None|].
  split; [intros v; apply kw_get_Some|].
  split; [apply kw_get_None|].
  split; [intros v; apply kw_get_Some|].
  split; [apply kw_get_None|].
  intros -> ->.
  apply API_init_none_inv in H as (c & f & g & Hc & Hd & -> & ->).
  exists c, f. split; [reflexivity|]. split; [now rewrite Hd|].
  intros x k v _ Hk. exists kw. rewrite deref_logged_store. split.
  - unfold bound_with, call, partial_of. cbn [preprocess_fn].
    now rewrite merge_kw_empty.
  - exact Hk.
Qed.

Lemma metadata_keywords_are_read_and_bound_witness :
  title (app (built "text-classification" Sample.model (Default NLP) Sample.titled))
  = PStr "demo".
Proof.
  refine (proj1 (metadata_keywords_are_read_and_bound "text-classification"
                   Sample.model None None Sample.titled Sample.defaults
                   (logged (store_default Sample.defaults NLP
                              (bound_with (Sample.tagged "nlp-pre")
                                          (Sample.tagged "nlp-post") Sample.titled))
                           [EvResolve "TEXT-CLASSIFICATION";
                            EvBind pre_slot Sample.titled;
                            EvBind post_slot Sample.titled;
                            EvRoute (POST "/api/predict-text" to_predict_text)])
                   (built "text-classification" Sample.model (Default NLP)
                          Sample.titled) eq_refl) (PStr "demo") _).
  reflexivity.
Defined.

Lemma create_api_false_inv m s pre post kw w w' api :
  create_api m s pre post false kw w = (w', inr api) ->
  API_init s m pre post kw w = (w', inr api).
Proof.
  unfold create_api, bind.
  destruct (API_init s m pre post kw w) as [w0 [e|a]]; simpl; intros H;
    [discriminate | now inversion H].
Qed.

(** X9. What [create_api(model, "image-classification", **kw)] serves:
    one POST route at /api/predict-image, whose handler returns
    vision_postprocess(model(vision_preprocess(B, **kw)), **kw), where
    the two functions are those the vision default held before the
    call; the model receives no keyword. *)
Theorem create_api_image_default_pipeline m s kw w w' api B :
  upper s = IMAGE_CLF ->
  create_api m s None None false kw w = (w', inr api) ->
  exists f g,
    vision w = {| preprocess_fn := Some f; postprocess_fn := Some g |} /\
    routes (app api)
    = [{| methods := ["POST"]; path := "/api/predict-image";
          handler := to_predict_image |}] /\
    snd (predict_image w' api B) =
      and_then (f (PBytes B) kw)
        (fun x => and_then (m x ∅) (fun y => g y kw)).
Proof.
  intros Ht H. apply create_api_false_inv in H.
  apply API_init_none_inv in H as (c & f & g & Hc & Hd & -> & ->).
  rewrite Ht in Hc. injection Hc as <-.
  exists f, g. split; [exact Hd|]. split.
  - unfold built. rewrite Ht. reflexivity.
  - unfold predict_image, processor_of.
    cbn [built server data_processor model hbind hret].
    rewrite (deref_logged_store w VISION).
    cbn [bound_with preprocess_fn postprocess_fn].
    unfold invoke, hbind, partial_of. cbn beta. rewrite !merge_kw_empty.
    destruct (f (PBytes B) kw) as [e|x]; simpl; [reflexivity|].
    destruct (m x ∅) as [e|y]; simpl; [reflexivity|].
    destruct (g y kw); reflexivity.
Qed.

Lemma create_api_image_default_pipeline_witness :
  exists f g,
    vision Sample.echo_defaults
    = {| preprocess_fn := Some f; postprocess_fn := Some g |} /\
    routes (app Scenario.first_api)
    = [{| methods := ["POST"]; path := "/api/predict-image";
          handler := to_predict_image |}] /\
    snd (predict_image Scenario.first_world Scenario.first_api []) =
      and_then (f (PBytes []) Sample.image_size)
        (fun x => and_then (Sample.model x ∅) (fun y => g y Sample.image_size)).
Proof.
  exact (create_api_image_default_pipeline Sample.model "image-classification"
           Sample.image_size Sample.echo_defaults
           Scenario.first_world Scenario.first_api [] eq_refl eq_refl).
Defined.

(** X10. Every API that the constructor returns has a processor
    installed, with a function in at least one slot, and in both slots
    when it is the category default; its stored tag is the uppercased
    argument and its model the one given. *)
Theorem constructed_api_has_processor s m pre post kw w w' api :
  API_init s m pre post kw w = (w', inr api) ->
  api_type (server api) = upper s /\
  model (server api) = m /\
  exists r,
    data_processor (server api) = Some r /\
    truthy (preprocess_fn (deref w' r)) || truthy (postprocess_fn (deref w' r))
    = true /\
    (pre = None -> post = None ->
     truthy (preprocess_fn (deref w' r)) && truthy (postprocess_fn (deref w' r))
     = true).
Proof.
  intros H.
  apply API_init_inv in H
    as [(Hs & -> & ->)|(-> & -> & c & f & g & _ & _ & -> & ->)].
  - split; [reflexivity|]. split; [reflexivity|].
    eexists. split; [reflexivity|]. cbn [deref preprocess_fn postprocess_fn].
    destruct pre, post; try discriminate; split; try reflexivity;
      intros; discriminate.
  - split; [reflexivity|]. split; [reflexivity|].
    eexists. split; [reflexivity|]. rewrite deref_logged_store.
    split; reflexivity.
Qed.

Lemma constructed_api_has_processor_witness :
  api_type (server (built "question-ans" Sample.model
                      (Own {| preprocess_fn := None;
                              postprocess_fn := Some Sample.post |}) ∅))
  = "QUESTION-ANS".
Proof.
  exact (proj1 (constructed_api_has_processor "question-ans" Sample.model
                  None (Some Sample.post) ∅ Sample.defaults
                  (logged Sample.defaults
                     [EvRoute (POST "/api/QnA" to_predict_question_answer)])
                  (built "question-ans" Sample.model
                     (Own {| preprocess_fn := None;
                             postprocess_fn := Some Sample.post |}) ∅)
                  eq_refl)).
Defined.

(** X11. [setup_api] guards the rebinding of the defaults but not the
    registration: run again on an API that the constructor returned, it
    appends that API's route to the application a second time, and
    leaves both category defaults as they are. *)
Theorem setup_api_again_duplicates_route s m pre post kw kw2 w w' api :
  API_init s m pre post kw w = (w', inr api) ->
  setup_api api kw2 w' =
    (logged w' (map EvRoute (routes (app api))),
     inr {| server := server api;
            app := add_routes (app api) (routes (app api)) |}) /\
  vision (fst (setup_api api kw2 w')) = vision w' /\
  nlp (fst (setup_api api kw2 w')) = nlp w'.
Proof.
  intros H.
  assert (Hb : exists r, api = built s m r kw).
  { apply API_init_inv in H as [(_ & _ & ->)|(_ & _ & c & f & g & _ & _ & _ & ->)];
      eauto. }
  destruct Hb as (r & ->).
  assert (E : setup_api (built s m r kw) kw2 w' =
              (logged w' (map EvRoute (routes (app (built s m r kw)))),
               inr {| server := server (built s m r kw);
                      app := add_routes (app (built s m r kw))
                               (routes (app (built s m r kw))) |})).
  { rewrite (setup_api_supplied (built s m r kw) kw2 w' r) by reflexivity.
    reflexivity. }
  rewrite E. repeat split.
Qed.

Lemma setup_api_again_duplicates_route_witness :
  setup_api Scenario.text_api ∅ Scenario.text_world =
    (logged Scenario.text_world (map EvRoute (routes (app Scenario.text_api))),
     inr {| server := server Scenario.text_api;
            app := add_routes (app Scenario.text_api)
                     (routes (app Scenario.text_api)) |}).
Proof.
  exact (proj1 (setup_api_again_duplicates_route "text-classification"
                  Sample.model None None ∅ ∅ Sample.defaults
                  Scenario.text_world Scenario.text_api eq_refl)).
Defined.
